(** * ai-service/app/main.py: the chat handler and its prompt construction

    A shallow embedding of [app/main.py]:
    - Python [str] values are sequences of Unicode code points, so that
      [str.strip] can be given CPython's own notion of whitespace;
    - Python dicts are finite maps keyed by their (ASCII) literal keys;
    - exceptions are an explicit sum, and the calls into the hosted model
      (the [google.generativeai] package) thread an explicit world made of the
      client's state and a trace of the external calls and prints performed. *)

From Stdlib Require Import NArith ZArith Ascii String.
From stdpp Require Import gmap strings list fin_maps.

#[local] Set Warnings "-register-all".
#[local] Open Scope string_scope.
#[local] Open Scope list_scope.

(** ** Text *)

(** A Python [str]: its code points, in order. *)
Definition pystr : Type := list N.

(** Decoding of a source literal.  The file is UTF-8, a Rocq string literal is
    its bytes; [utf8_go] reassembles the code points ([pending] continuation
    bytes are still expected for the code point accumulated in [acc]). *)
Fixpoint utf8_go (s : string) (acc : N) (pending : nat) : pystr :=
  match s with
  | EmptyString => []
  | String a s' =>
      let b := N_of_ascii a in
      match pending with
      | O =>
          if (b <? 128)%N then b :: utf8_go s' 0%N 0
          else if (b <? 224)%N then utf8_go s' (N.land b 31) 1
          else if (b <? 240)%N then utf8_go s' (N.land b 15) 2
          else utf8_go s' (N.land b 7) 3
      | S p =>
          let acc' := N.lor (N.shiftl acc 6) (N.land b 63) in
          match p with
          | O => acc' :: utf8_go s' 0%N 0
          | S _ => utf8_go s' acc' p
          end
      end
  end.

Definition str_lit (s : string) : pystr := utf8_go s 0%N 0.
Coercion str_lit : string >-> pystr.

(** The newline of the literals ["\n"] and ["\n\n"]. *)
Definition NL : pystr := [10%N].

(** [Py_UNICODE_ISSPACE]: the code points [str.strip()] removes. *)
Definition isspace (c : N) : bool :=
  ((9 <=? c) && (c <=? 13) || (28 <=? c) && (c <=? 32)
   || (c =? 133) || (c =? 160) || (c =? 5760)
   || (8192 <=? c) && (c <=? 8202)
   || (c =? 8232) || (c =? 8233) || (c =? 8239) || (c =? 8287)
   || (c =? 12288))%N.

Fixpoint lstrip (s : pystr) : pystr :=
  match s with
  | [] => []
  | c :: s' => if isspace c then lstrip s' else s
  end.

Definition rstrip (s : pystr) : pystr := rev (lstrip (rev s)).

(** [s.strip()] *)
Definition strip (s : pystr) : pystr := rstrip (lstrip s).

(** Truth value of a [str], as tested by [not s]. *)
Definition str_truthy (s : pystr) : bool :=
  match s with [] => false | _ :: _ => true end.

(** [sep.join(parts)] *)
Fixpoint join (sep : pystr) (parts : list pystr) : pystr :=
  match parts with
  | [] => []
  | [p] => p
  | p :: rest => p ++ sep ++ join sep rest
  end.

(** ** Dynamic values and exceptions *)

(** The values that travel through [Dict[str, Any]]. *)
Inductive pyval :=
  | PyNone
  | PyBool (b : bool)
  | PyInt (n : Z)
  | PyStr (s : pystr)
  | PyList (xs : list pyval)
  | PyDict (d : gmap string pyval).

(** An exception (an instance of some subclass of [Exception]) raised by an
    external collaborator: the handlers below only ever observe its class
    name and [str(e)]. *)
Record ext_exn := ExtExn { exc_class : string; exc_str : pystr }.

(** The exceptions this module raises or lets through; all of them are
    subclasses of [Exception]. *)
Inductive exn :=
  | External (e : ext_exn)
  | RuntimeError (msg : pystr) (cause : option ext_exn)
  | KeyError (key : string)
  | TypeError
  | AttributeError
  | ValidationError (model : string)
  | HTTPException (status_code : Z) (detail : pystr).

(** Pure code that may raise. *)
Definition Exc (A : Type) : Type := exn + A.

#[export] Instance Exc_ret : MRet Exc := fun _ x => inr x.
#[export] Instance Exc_bind : MBind Exc :=
  fun _ _ f m => match m with inl e => inl e | inr x => f x end.

(** [d[key]] *)
Definition getitem {V} (d : gmap string V) (key : string) : Exc V :=
  match d !! key with
  | Some v => inr v
  | None => inl (KeyError key)
  end.

(** [d.get(key, dflt)] *)
Definition dict_get {V} (d : gmap string V) (key : string) (dflt : V) : V :=
  default dflt (d !! key).

(** [v.get(key, dflt)] on a value whose type is only known at run time: only a
    dict has the method. *)
Definition py_get (v : pyval) (key : string) (dflt : pyval) : Exc pyval :=
  match v with
  | PyDict d => inr (dict_get d key dflt)
  | _ => inl AttributeError
  end.

(** The items a [for] loop draws from a value. *)
Definition py_iter (v : pyval) : Exc (list pyval) :=
  match v with
  | PyList xs => inr xs
  | PyStr s => inr (map (fun c => PyStr [c]) s)
  | PyDict d => inr (map (fun kv => PyStr (str_lit (fst kv))) (map_to_list d))
  | PyNone | PyBool _ | PyInt _ => inl TypeError
  end.

(** A dict display [{k1: v1, k2: v2, ...}]: the items are stored left to
    right, a later one replacing an earlier one with the same key. *)
Definition dict_of {V} (items : list (string * V)) : gmap string V :=
  foldl (fun d kv => <[fst kv := snd kv]> d) ∅ items.

(** Truth value of a list, as tested by [bool(l)] and [x if l else y]. *)
Definition list_truthy {A} (l : list A) : bool :=
  match l with [] => false | _ :: _ => true end.

(** ** ERROR_MESSAGES *)

Definition ERROR_MESSAGES : gmap string pystr :=
  dict_of
    [ ("empty_query", str_lit "გთხოვთ დაწეროთ თქვენი კითხვა");
      ("service_unavailable", str_lit "სერვისი დროებით მიუწვდომელია");
      ("processing_error", str_lit "შეცდომა დამუშავებისას") ].

(** ** Schemas (request / response) *)

Inductive Role := user | assistant.

(** The text of a [Literal["user", "assistant"]] value. *)
Definition Role_str (r : Role) : pystr :=
  match r with user => str_lit "user" | assistant => str_lit "assistant" end.

Record ConversationMessage := { role : Role; content : pystr }.

Record ChatRequest :=
  { message : pystr; conversation_history : list ConversationMessage }.

Record Source := { id : Z; src_content : pystr; section : pystr }.

Record ChatResponse :=
  { answer : pystr; sources : list Source; metadata : gmap string pyval }.

(** [Source(id=i, content=c, section=s)]: the [str] fields are validated. *)
Definition Source_new (i : Z) (c s : pyval) : Exc Source :=
  match c, s with
  | PyStr c', PyStr s' => inr {| id := i; src_content := c'; section := s' |}
  | _, _ => inl (ValidationError "Source")
  end.

(** [ChatResponse(answer=a, sources=srcs, metadata=m)] *)
Definition ChatResponse_new (a : pyval) (srcs : list Source) (m : pyval)
  : Exc ChatResponse :=
  match a, m with
  | PyStr a', PyDict m' => inr {| answer := a'; sources := srcs; metadata := m' |}
  | _, _ => inl (ValidationError "ChatResponse")
  end.

(** ** The prompt (first half of [RagService.generate_response]) *)

(** The [for msg in history] loop, [history_text_lines] being the list built
    so far.  A dict without the key makes the subscript raise. *)
Fixpoint history_text_lines_loop
    (history : list (gmap string pystr)) (history_text_lines : list pystr)
  : Exc (list pystr) :=
  match history with
  | [] => mret history_text_lines
  | msg :: rest =>
      r ← getitem msg "role";
      let prefix :=
        if decide (r = str_lit "user") then str_lit "User"
        else str_lit "Assistant" in
      c ← getitem msg "content";
      history_text_lines_loop rest
        (history_text_lines ++ [prefix ++ str_lit ": " ++ c])
  end.

Definition history_text_lines (history : list (gmap string pystr))
  : Exc (list pystr) :=
  history_text_lines_loop history [].

Definition history_text (history_text_lines : list pystr) : pystr :=
  if list_truthy history_text_lines then join NL history_text_lines
  else str_lit "—".

Definition system_instruction : pystr :=
  str_lit "შენ ხარ დამხმარე AI ასისტენტი Subconscious აპისთვის. "
  ++ str_lit "უპასუხე მკაფიოდ, სტრუქტურირებულად და მაქსიმალურად სასარგებლოდ. "
  ++ str_lit "თუ კითხვა არ არის ნათელი, სთხოვი მომხმარებელს დაზუსტებას.".

Definition full_prompt (history : list (gmap string pystr)) (query : pystr)
  : Exc pystr :=
  lines ← history_text_lines history;
  mret
    (system_instruction ++ NL ++ NL
     ++ str_lit "საუბრის ისტორია:" ++ NL ++ history_text lines ++ NL ++ NL
     ++ str_lit "ახლა მომხმარებლის ახალი კითხვა:" ++ NL
     ++ str_lit "User: " ++ query ++ NL ++ NL
     ++ str_lit "გთხოვ დეტალური და გასაგები პასუხი ქართულად.").

(** ** The hosted model, an external collaborator *)

(** What [generate_content] hands back: a falsy value, or an object whose
    [text] property raises, is [None], or is a [str]. *)
Inductive response :=
  | RespFalsy
  | Resp (text : ext_exn + option pystr).

(** The three entry points of [google.generativeai] used by the service.
    [Client] is the state of the package and of the remote model (which need
    not answer the same prompt twice alike); [Model] is the handle returned by
    [genai.GenerativeModel]. *)
Class GenAI (Client Model : Type) : Type :=
  { configure : pystr → Client → (ext_exn + unit) * Client;
    GenerativeModel : pystr → Client → (ext_exn + Model) * Client;
    generate_content : Model → pystr → Client → (ext_exn + response) * Client }.

(** What the process did to the outside, in order. *)
Inductive event :=
  | EvConfigure (api_key : pystr)
  | EvGenerativeModel (model_name : pystr)
  | EvGenerateContent (prompt : pystr)
  | EvPrint (prefix : pystr) (e : exn).

Record World (Client : Type) : Type :=
  { environ : gmap string pystr; client : Client; trace : list event }.
Arguments environ {Client} _.
Arguments client {Client} _.
Arguments trace {Client} _.

(** Code that runs in the world and may raise an [E]. *)
Definition PyE (Client E A : Type) : Type :=
  World Client → (E + A) * World Client.

#[export] Instance PyE_ret {Client E} : MRet (PyE Client E) :=
  fun _ x w => (inr x, w).
#[export] Instance PyE_bind {Client E} : MBind (PyE Client E) :=
  fun _ _ f m w =>
    match m w with
    | (inl e, w') => (inl e, w')
    | (inr x, w') => f x w'
    end.

Section Service.
Context {Client Model : Type} `{!GenAI Client Model}.

#[local] Abbreviation Py := (PyE Client exn).
#[local] Abbreviation W := (World Client).

Definition raise {E A} (e : E) : PyE Client E A := fun w => (inl e, w).

(** Pure code run inside the world. *)
Definition pure {A} (m : Exc A) : Py A := fun w => (m, w).

Definition log (ev : event) (w : W) : W :=
  {| environ := environ w; client := client w; trace := trace w ++ [ev] |}.

(** A call into the package: it is recorded, then performed on the client
    state. *)
Definition external {A} (ev : event) (f : Client → (ext_exn + A) * Client)
  : PyE Client ext_exn A :=
  fun w =>
    let '(r, c) := f (client w) in
    (r, {| environ := environ w; client := c; trace := trace w ++ [ev] |}).

(** [print(f"{prefix}{e}")] *)
Definition print (prefix : pystr) (e : exn) : Py unit :=
  fun w => (inr (), log (EvPrint prefix e) w).

(** [os.getenv(name)] *)
Definition os_getenv (name : string) : Py (option pystr) :=
  fun w => (inr (environ w !! name), w).

(** [try: body / except Exception as e: handler e], for a body in which only
    calls into the package can raise. *)
Definition try_except_ext {A} (body : PyE Client ext_exn A)
    (handler : ext_exn → Py A) : Py A :=
  fun w =>
    match body w with
    | (inl e, w') => handler e w'
    | (inr x, w') => (inr x, w')
    end.

(** [try: body / except ...: handler e] *)
Definition try_except {A} (body : Py A) (handler : exn → Py A) : Py A :=
  fun w =>
    match body w with
    | (inl e, w') => handler e w'
    | (inr x, w') => (inr x, w')
    end.

(** An exception of the package leaving a function unhandled. *)
Definition propagate {A} (m : PyE Client ext_exn A) : Py A :=
  try_except_ext m (fun e => raise (External e)).

(** ** RagService *)

Record RagService := { model : Model }.

Definition RagService___init__ : Py RagService :=
  api_key ← os_getenv "GEMINI_API_KEY";
  match api_key with
  | Some key =>
      if str_truthy key then
        _ ← propagate (external (EvConfigure key) (configure key));
        m ← propagate
              (external (EvGenerativeModel (str_lit "gemini-2.5-flash"))
                 (GenerativeModel (str_lit "gemini-2.5-flash")));
        mret {| model := m |}
      else
        raise (RuntimeError
                 (str_lit "GEMINI_API_KEY არ არის განსაზღვრული .env ფაილში") None)
  | None =>
      raise (RuntimeError
               (str_lit "GEMINI_API_KEY არ არის განსაზღვრული .env ფაილში") None)
  end.

(** ** The prompt, as [generate_response] builds it

    Lines 77-95 are statements of the method like the others: they run in the
    world, and nothing in their type keeps them from reading or changing the
    environment, the client or the trace.  [prompt_builder] is that run, step
    by step; [full_prompt] above is the value it is shown to return. *)

(** The [for msg in history] loop, run in the world. *)
Fixpoint prompt_builder_loop
    (history : list (gmap string pystr)) (history_text_lines : list pystr)
  : Py (list pystr) :=
  match history with
  | [] => mret history_text_lines
  | msg :: rest =>
      r ← pure (getitem msg "role");
      let prefix :=
        if decide (r = str_lit "user") then str_lit "User"
        else str_lit "Assistant" in
      c ← pure (getitem msg "content");
      prompt_builder_loop rest
        (history_text_lines ++ [prefix ++ str_lit ": " ++ c])
  end.

Definition prompt_builder (history : list (gmap string pystr)) (query : pystr)
  : Py pystr :=
  history_text_lines ← prompt_builder_loop history [];
  let history_text :=
    if list_truthy history_text_lines then join NL history_text_lines
    else str_lit "—" in
  mret
    (system_instruction ++ NL ++ NL
     ++ str_lit "საუბრის ისტორია:" ++ NL ++ history_text ++ NL ++ NL
     ++ str_lit "ახლა მომხმარებლის ახალი კითხვა:" ++ NL
     ++ str_lit "User: " ++ query ++ NL ++ NL
     ++ str_lit "გთხოვ დეტალური და გასაგები პასუხი ქართულად.").

(** [if not response or not response.text: ... else: ...] *)
Definition answer_text (resp : response) : PyE Client ext_exn pystr :=
  match resp with
  | RespFalsy =>
      mret (str_lit "ვერ შევძელი ამ კითხვის დამუშავება, სცადე სხვა ფორმულირება.")
  | Resp (inl e) => raise e
  | Resp (inr None) =>
      mret (str_lit "ვერ შევძელი ამ კითხვის დამუშავება, სცადე სხვა ფორმულირება.")
  | Resp (inr (Some text)) =>
      if str_truthy text then mret text
      else
        mret (str_lit "ვერ შევძელი ამ კითხვის დამუშავება, სცადე სხვა ფორმულირება.")
  end.

Definition generate_response (self : RagService) (query : pystr)
    (history : list (gmap string pystr)) : Py (gmap string pyval) :=
  prompt ← prompt_builder history query;
  try_except_ext
    (resp ← external (EvGenerateContent prompt)
              (generate_content (model self) prompt);
     answer ← answer_text resp;
     let sources :=
       PyList
         [ PyDict (dict_of
             [ ("content",
                PyStr (str_lit "პასუხი გენერირებულია Gemini მოდელით მოცემული ისტორიის და კითხვის საფუძველზე."));
               ("section", PyStr (str_lit "model: gemini-2.5-flash")) ]) ] in
     let metadata :=
       PyDict (dict_of
         [ ("model", PyStr (str_lit "gemini-2.5-flash"));
           ("has_history", PyBool (list_truthy history)) ]) in
     mret (dict_of
       [ ("answer", PyStr answer);
         ("source_documents", sources);
         ("metadata", metadata) ]))
    (fun e =>
       raise (RuntimeError (str_lit "Gemini error: " ++ exc_str e) (Some e))).

(** The module-level [try: rag_service = RagService() / except Exception]. *)
Definition rag_service_init (w : W) : option RagService * W :=
  match RagService___init__ w with
  | (inr svc, w') => (Some svc, w')
  | (inl e, w') => (None, log (EvPrint (str_lit "❌ RagService init error: ") e) w')
  end.

(** ** Endpoints *)

Definition health (rag_service : option RagService) : gmap string pyval :=
  dict_of
    [ ("status", PyStr (str_lit "ok"));
      ("rag_service_ready",
       PyBool (match rag_service with Some _ => true | None => false end)) ].

(** [{"role": msg.role, "content": msg.content} for msg in ...] *)
Definition history_payload (conversation_history : list ConversationMessage)
  : list (gmap string pystr) :=
  map (fun msg => dict_of [ ("role", Role_str (role msg));
                            ("content", content msg) ])
      conversation_history.

(** The [for i, doc in enumerate(...)] loop, from index [i] on. *)
Fixpoint sources_loop (i : Z) (docs : list pyval) (sources : list Source)
  : Exc (list Source) :=
  match docs with
  | [] => mret sources
  | doc :: rest =>
      c ← py_get doc "content" (PyStr (str_lit ""));
      s ← py_get doc "section" (PyStr (str_lit ""));
      src ← Source_new i c s;
      sources_loop (i + 1) rest (sources ++ [src])
  end.

(** The two [except] clauses of [chat]: [except HTTPException: raise], then
    [except Exception as e]. *)
Definition chat_except {A} (e : exn) : Py A :=
  match e with
  | HTTPException _ _ => raise e
  | _ =>
      _ ← print (str_lit "❌ Error in /api/chat: ") e;
      detail ← pure (getitem ERROR_MESSAGES "processing_error");
      raise (HTTPException 500 detail)
  end.

Definition chat (rag_service : option RagService) (request : ChatRequest)
  : Py ChatResponse :=
  match rag_service with
  | None =>
      detail ← pure (getitem ERROR_MESSAGES "service_unavailable");
      raise (HTTPException 503 detail)
  | Some svc =>
      if negb (str_truthy (message request))
         || negb (str_truthy (strip (message request)))
      then
        detail ← pure (getitem ERROR_MESSAGES "empty_query");
        raise (HTTPException 400 detail)
      else
        try_except
          (raw ← generate_response svc (message request)
                   (history_payload (conversation_history request));
           docs ← pure (py_iter (dict_get raw "source_documents" (PyList [])));
           sources ← pure (sources_loop 0 docs []);
           pure (ChatResponse_new
                   (dict_get raw "answer" (PyStr (str_lit "")))
                   sources
                   (dict_get raw "metadata" (PyDict ∅))))
          chat_except
  end.

Definition chat_alias (rag_service : option RagService)
    (request : ChatRequest) : Py ChatResponse :=
  chat rag_service request.

(** ** The routes registered on [app] *)

Inductive http_method := GET | POST.

Inductive http_body :=
  | JsonDict (d : gmap string pyval)
  | JsonChatResponse (r : ChatResponse).

(** The handler the decorators bind to a method and path, applied to the
    parsed request body (which a GET route ignores). *)
Definition app (rag_service : option RagService) (method : http_method)
    (path : string) (request : ChatRequest) : option (Py http_body) :=
  match method with
  | GET =>
      if decide (path = "/health")
      then Some (mret (JsonDict (health rag_service)))
      else None
  | POST =>
      if decide (path = "/api/chat")
      then Some (r ← chat rag_service request; mret (JsonChatResponse r))
      else if decide (path = "/chat")
      then Some (r ← chat_alias rag_service request; mret (JsonChatResponse r))
      else None
  end.

End Service.

(** ** A scripted model client

    The client state is the outcome the next [generate_content] call will
    have; [configure] and [GenerativeModel] succeed. *)
Module Scripted.

Definition script : Type := ext_exn + response.

#[global] Instance scripted_genai : GenAI script unit :=
  {| configure := fun _ c => (inr (), c);
     GenerativeModel := fun _ c => (inr (), c);
     generate_content := fun _ _ c => (c, c) |}.

Definition svc : RagService (Model := unit) := {| model := () |}.

(** A process whose environment holds the key, resp. holds nothing. *)
Definition world (c : script) : World script :=
  {| environ := dict_of [ ("GEMINI_API_KEY", str_lit "secret") ];
     client := c; trace := [] |}.

Definition world_no_key (c : script) : World script :=
  {| environ := ∅; client := c; trace := [] |}.

Definition replies (text : string) : script :=
  inr (Resp (inr (Some (str_lit text)))).

Definition hello : ChatRequest :=
  {| message := str_lit "Hello"; conversation_history := [] |}.

Definition hello_again : ChatRequest :=
  {| message := str_lit "And then?";
     conversation_history :=
       [ {| role := user; content := str_lit "Hello" |};
         {| role := assistant; content := str_lit "Hi there" |} ] |}.

End Scripted.

(** ** What the specification says, in its own words *)

(** "label "User" for role user and "Assistant" for role assistant" *)
Definition spec_label (r : Role) : pystr :=
  match r with user => str_lit "User" | assistant => str_lit "Assistant" end.

(** "render each prior message as "<Label>: <content>"" *)
Definition spec_line (m : ConversationMessage) : pystr :=
  spec_label (role m) ++ str_lit ": " ++ content m.

(** "join lines with newline; if no prior messages, substitute a literal
    placeholder" *)
Definition spec_history_block (h : list ConversationMessage) : pystr :=
  match h with
  | [] => str_lit "—"
  | _ :: _ => join NL (map spec_line h)
  end.

(** "Prepend a fixed system instruction. Append the new query formatted as
    "User: <query>" and a closing instruction"; the two headings are the
    fixed text the code puts before the history block and before the query. *)
Definition spec_prompt (h : list ConversationMessage) (query : pystr) : pystr :=
  system_instruction ++ NL ++ NL
  ++ str_lit "საუბრის ისტორია:" ++ NL ++ spec_history_block h ++ NL ++ NL
  ++ str_lit "ახლა მომხმარებლის ახალი კითხვა:" ++ NL
  ++ str_lit "User: " ++ query ++ NL ++ NL
  ++ str_lit "გთხოვ დეტალური და გასაგები პასუხი ქართულად.".

(** "empty or contains only whitespace" *)
Definition blank (s : pystr) : bool := forallb isspace s.

(** "the client returns no usable text": a falsy response, or a [text] that is
    [None] or empty. *)
Definition no_usable_text (r : response) : Prop :=
  r = RespFalsy ∨ r = Resp (inr None) ∨ r = Resp (inr (Some [])).

(** The prompts handed to the model along a trace. *)
Definition prompts_sent (tr : list event) : list pystr :=
  omap (fun ev => match ev with EvGenerateContent p => Some p | _ => None end) tr.

(** The line the loop of [generate_response] produces for a dict holding
    role [r] and content [c]. *)
Definition line_of (rc : pystr * pystr) : pystr :=
  (if decide (fst rc = str_lit "user") then str_lit "User"
   else str_lit "Assistant") ++ str_lit ": " ++ snd rc.

(** The fixed texts. *)
Definition fallback_text : pystr :=
  str_lit "ვერ შევძელი ამ კითხვის დამუშავება, სცადე სხვა ფორმულირება.".

Definition synthetic_source : Source :=
  {| id := 0;
     src_content :=
       str_lit "პასუხი გენერირებულია Gemini მოდელით მოცემული ისტორიის და კითხვის საფუძველზე.";
     section := str_lit "model: gemini-2.5-flash" |}.

(** A plain dict [msg] holds role [fst rc] and content [snd rc] (and possibly
    other keys). *)
Definition entry_of (msg : gmap string pystr) (rc : pystr * pystr) : Prop :=
  msg !! "role" = Some (fst rc) ∧ msg !! "content" = Some (snd rc).

(** The world after the model was called with prompt [p] and left its state
    at [c]. *)
Definition called {Client} (p : pystr) (c : Client) (w : World Client)
  : World Client :=
  {| environ := environ w; client := c;
     trace := trace w ++ [EvGenerateContent p] |}.

(** The pieces of the dict [generate_response] returns around an answer. *)
Definition source_document : pyval :=
  PyDict (dict_of
    [ ("content",
       PyStr (str_lit "პასუხი გენერირებულია Gemini მოდელით მოცემული ისტორიის და კითხვის საფუძველზე."));
      ("section", PyStr (str_lit "model: gemini-2.5-flash")) ]).

Definition metadata_of (has_history : bool) : gmap string pyval :=
  dict_of
    [ ("model", PyStr (str_lit "gemini-2.5-flash"));
      ("has_history", PyBool has_history) ].

Definition raw_of (a : pystr) (has_history : bool) : gmap string pyval :=
  dict_of
    [ ("answer", PyStr a);
      ("source_documents", PyList [source_document]);
      ("metadata", PyDict (metadata_of has_history)) ].

(** The answer chosen for a response, when reading its [text] does not
    raise. *)
Definition answer_of (resp : response) : option pystr :=
  match resp with
  | RespFalsy | Resp (inr None) => Some fallback_text
  | Resp (inr (Some text)) =>
      Some (if str_truthy text then text else fallback_text)
  | Resp (inl _) => None
  end.

(** The texts of the three client-visible errors. *)
Definition msg_unavailable : pystr := str_lit "სერვისი დროებით მიუწვდომელია".
Definition msg_empty_query : pystr := str_lit "გთხოვთ დაწეროთ თქვენი კითხვა".
Definition msg_processing : pystr := str_lit "შეცდომა დამუშავებისას".

(** The first subscript of the loop body that raises on [msg], if any:
    [msg["role"]] is evaluated before [msg['content']]. *)
Definition missing_key (msg : gmap string pystr) : option string :=
  match msg !! "role" with
  | None => Some "role"
  | Some _ =>
      match msg !! "content" with
      | None => Some "content"
      | Some _ => None
      end
  end.

(** A source document [doc] that response assembly accepts: a dict whose
    ["content"] and ["section"], read with [.get(key, "")], are the strings
    [fst cs] and [snd cs]. *)
Definition doc_holds (doc : pyval) (cs : pystr * pystr) : Prop :=
  ∃ d, doc = PyDict d
       ∧ dict_get d "content" (PyStr (str_lit "")) = PyStr (fst cs)
       ∧ dict_get d "section" (PyStr (str_lit "")) = PyStr (snd cs).

(** The prompts [chat] hands to the model for a request. *)
Definition chat_prompts {A} (rag_service : option A) (request : ChatRequest)
  : list pystr :=
  match rag_service with
  | None => []
  | Some _ =>
      if blank (message request) then []
      else [spec_prompt (conversation_history request) (message request)]
  end.

(** The message of the [RuntimeError] raised without an API key. *)
Definition msg_no_api_key : pystr :=
  str_lit "GEMINI_API_KEY არ არის განსაზღვრული .env ფაილში".


(** * Properties *)

(** ** Text *)

Lemma lstrip_nil (s : pystr) : lstrip s = [] ↔ blank s = true.
Proof.
  unfold blank. induction s as [|c s IH]; simpl; [done|].
  destruct (isspace c); simpl; [exact IH|]. split; discriminate.
Qed.

Lemma blank_rev (s : pystr) : blank (rev s) = blank s.
Proof.
  unfold blank. induction s as [|c s IH]; simpl; [done|].
  rewrite forallb_app, IH. simpl. rewrite andb_true_r. apply andb_comm.
Qed.

Lemma lstrip_blank (s : pystr) : blank s = false → blank (lstrip s) = false.
Proof.
  unfold blank. induction s as [|c s IH]; simpl; [done|].
  destruct (isspace c) eqn:Hc; simpl; [exact IH|]. by rewrite Hc.
Qed.

Lemma strip_nil (s : pystr) : strip s = [] ↔ blank s = true.
Proof.
  unfold strip, rstrip. split.
  - intros H. destruct (blank s) eqn:Hb; [done|]. exfalso.
    apply (f_equal (@rev N)) in H. rewrite rev_involutive in H. simpl in H.
    apply lstrip_nil in H. rewrite blank_rev in H.
    apply lstrip_blank in Hb. congruence.
  - intros H. apply lstrip_nil in H. by rewrite H.
Qed.

(** The guard of [chat], [not message or not message.strip()], holds exactly
    of the blank messages. *)
Lemma chat_guard_blank (s : pystr) :
  negb (str_truthy s) || negb (str_truthy (strip s)) = blank s.
Proof.
  destruct (blank s) eqn:Hb.
  - apply strip_nil in Hb. rewrite Hb. simpl. apply orb_true_r.
  - assert (strip s ≠ []) as Hs by (rewrite strip_nil; congruence).
    assert (s ≠ []) as Hn by (intros ->; discriminate).
    destruct s; [done|]. destruct (strip _); done.
Qed.

(** ** The prompt *)

Lemma history_text_lines_loop_entries history entries acc :
  Forall2 entry_of history entries →
  history_text_lines_loop history acc = inr (acc ++ map line_of entries).
Proof.
  intros H. revert acc.
  induction H as [|msg [r c] history entries [Hr Hc] _ IH]; intros acc; simpl.
  - by rewrite app_nil_r.
  - unfold getitem. simpl in Hr, Hc. rewrite Hr. simpl. rewrite Hc. simpl.
    rewrite IH, <- app_assoc. reflexivity.
Qed.

Lemma history_text_lines_entries history entries :
  Forall2 entry_of history entries →
  history_text_lines history = inr (map line_of entries).
Proof. apply history_text_lines_loop_entries. Qed.

Lemma history_payload_entries (h : list ConversationMessage) :
  Forall2 entry_of (history_payload h)
    (map (fun m => (Role_str (role m), content m)) h).
Proof.
  induction h as [|m h IH]; simpl; constructor; [|exact IH].
  split; reflexivity.
Qed.

Lemma line_of_message (m : ConversationMessage) :
  line_of (Role_str (role m), content m) = spec_line m.
Proof.
  unfold line_of, spec_line.
  destruct m as [[] c]; cbn [fst snd role content Role_str spec_label];
    destruct (decide _) as [He|He]; try reflexivity.
  - by destruct He.
  - vm_compute in He. discriminate.
Qed.

Lemma history_text_lines_payload (h : list ConversationMessage) :
  history_text_lines (history_payload h) = inr (map spec_line h).
Proof.
  rewrite (history_text_lines_entries _ _ (history_payload_entries h)).
  rewrite map_map. f_equal. apply map_ext. intros m. apply line_of_message.
Qed.

Lemma history_text_block (h : list ConversationMessage) :
  history_text (map spec_line h) = spec_history_block h.
Proof. destruct h; reflexivity. Qed.

Lemma full_prompt_payload (h : list ConversationMessage) (query : pystr) :
  full_prompt (history_payload h) query = inr (spec_prompt h query).
Proof.
  unfold full_prompt. rewrite history_text_lines_payload. simpl.
  unfold mret, Exc_ret. rewrite history_text_block. reflexivity.
Qed.

(** The run of the prompt lines in the world and their value agree: the loop
    returns what [history_text_lines_loop] computes and hands the world back
    as it received it. *)
Lemma prompt_builder_loop_run {Client} (history : list (gmap string pystr))
    (acc : list pystr) (w : World Client) :
  prompt_builder_loop history acc w = (history_text_lines_loop history acc, w).
Proof.
  revert acc. induction history as [|msg history IH]; intros acc;
    cbn [prompt_builder_loop history_text_lines_loop].
  - reflexivity.
  - unfold mbind, PyE_bind, Exc_bind, pure.
    destruct (getitem msg "role") as [e|r]; [reflexivity|].
    destruct (getitem msg "content") as [e|c]; [reflexivity|].
    apply IH.
Qed.

Lemma prompt_builder_run {Client} (history : list (gmap string pystr))
    (query : pystr) (w : World Client) :
  prompt_builder history query w = (full_prompt history query, w).
Proof.
  unfold prompt_builder, full_prompt, history_text_lines, history_text.
  unfold mbind, PyE_bind, Exc_bind. rewrite prompt_builder_loop_run.
  destruct (history_text_lines_loop history []) as [e|lines]; reflexivity.
Qed.

(** ** The handler *)

Lemma error_message_unavailable :
  getitem ERROR_MESSAGES "service_unavailable" = inr msg_unavailable.
Proof. vm_compute. reflexivity. Qed.

Lemma error_message_empty_query :
  getitem ERROR_MESSAGES "empty_query" = inr msg_empty_query.
Proof. vm_compute. reflexivity. Qed.

Lemma error_message_processing :
  getitem ERROR_MESSAGES "processing_error" = inr msg_processing.
Proof. vm_compute. reflexivity. Qed.

Lemma raw_of_answer a b :
  dict_get (raw_of a b) "answer" (PyStr (str_lit "")) = PyStr a.
Proof. vm_compute. reflexivity. Qed.

Lemma raw_of_source_documents a b :
  dict_get (raw_of a b) "source_documents" (PyList []) = PyList [source_document].
Proof. vm_compute. reflexivity. Qed.

Lemma raw_of_metadata a b :
  dict_get (raw_of a b) "metadata" (PyDict ∅) = PyDict (metadata_of b).
Proof. vm_compute. reflexivity. Qed.

Lemma sources_loop_source_document :
  sources_loop 0 [source_document] [] = inr [synthetic_source].
Proof. vm_compute. reflexivity. Qed.

Lemma metadata_of_model b :
  metadata_of b !! "model" = Some (PyStr (str_lit "gemini-2.5-flash")).
Proof. vm_compute. reflexivity. Qed.

Lemma metadata_of_has_history b :
  metadata_of b !! "has_history" = Some (PyBool b).
Proof. vm_compute. reflexivity. Qed.

Section Handler.
Context {Client Model : Type} `{!GenAI Client Model}.

#[local] Abbreviation W := (World Client).

Lemma chat_unavailable (request : ChatRequest) (w : W) :
  chat None request w = (inl (HTTPException 503 msg_unavailable), w).
Proof.
  unfold chat, pure, mbind, PyE_bind. rewrite error_message_unavailable.
  reflexivity.
Qed.

Lemma chat_blank (svc : RagService) (request : ChatRequest) (w : W) :
  blank (message request) = true →
  chat (Some svc) request w = (inl (HTTPException 400 msg_empty_query), w).
Proof.
  intros Hb. unfold chat. rewrite chat_guard_blank, Hb.
  unfold pure, mbind, PyE_bind. rewrite error_message_empty_query.
  reflexivity.
Qed.

Lemma chat_except_generic {A} (e : exn) (w : W) :
  (∀ s d, e ≠ HTTPException s d) →
  chat_except (A := A) e w
  = (inl (HTTPException 500 msg_processing),
     log (EvPrint (str_lit "❌ Error in /api/chat: ") e) w).
Proof.
  intros He. unfold chat_except, print, pure, mbind, PyE_bind.
  rewrite error_message_processing.
  destruct e; try reflexivity. by destruct (He status_code detail).
Qed.

Lemma generate_response_run self query h w :
  generate_response self query (history_payload h) w
  = match generate_content (model self) (spec_prompt h query) (client w) with
    | (inl e, c) =>
        (inl (RuntimeError (str_lit "Gemini error: " ++ exc_str e) (Some e)),
         called (spec_prompt h query) c w)
    | (inr resp, c) =>
        match resp with
        | Resp (inl e) =>
            (inl (RuntimeError (str_lit "Gemini error: " ++ exc_str e) (Some e)),
             called (spec_prompt h query) c w)
        | _ =>
            (inr (raw_of (default fallback_text (answer_of resp)) (list_truthy h)),
             called (spec_prompt h query) c w)
        end
    end.
Proof.
  unfold generate_response, mbind, PyE_bind.
  rewrite prompt_builder_run, full_prompt_payload.
  unfold try_except_ext, external.
  assert (list_truthy (history_payload h) = list_truthy h) as ->
    by (by destruct h).
  destruct (generate_content _ _ _) as [[e|resp] c];
    [|destruct resp as [|[e|[text|]]]; cbn [answer_of answer_text];
      try destruct (str_truthy text)];
    cbv beta iota delta [mret PyE_ret raise raw_of called fallback_text
      metadata_of source_document from_option Datatypes.id];
    reflexivity.
Qed.

(** Response assembly, on the dict of [generate_response]. *)
Lemma chat_assembles svc request w a c resp :
  blank (message request) = false →
  generate_content (model svc)
    (spec_prompt (conversation_history request) (message request)) (client w)
  = (inr resp, c) →
  answer_of resp = Some a →
  chat (Some svc) request w
  = (inr {| answer := a;
            sources := [synthetic_source];
            metadata := metadata_of (list_truthy (conversation_history request)) |},
     called (spec_prompt (conversation_history request) (message request)) c w).
Proof.
  intros Hb Hc Ha. unfold chat. rewrite chat_guard_blank, Hb.
  cbn [negb]. unfold try_except, mbind, PyE_bind.
  rewrite generate_response_run, Hc.
  destruct resp as [|[e|t]]; try discriminate; rewrite Ha;
    cbv beta iota delta [from_option Datatypes.id pure];
    rewrite raw_of_answer, raw_of_source_documents, raw_of_metadata;
    cbn [py_iter]; rewrite sources_loop_source_document;
    reflexivity.
Qed.

Lemma chat_client_failure svc request w e c :
  blank (message request) = false →
  generate_content (model svc)
    (spec_prompt (conversation_history request) (message request)) (client w)
  = (inl e, c)
  ∨ generate_content (model svc)
      (spec_prompt (conversation_history request) (message request)) (client w)
    = (inr (Resp (inl e)), c) →
  chat (Some svc) request w
  = (inl (HTTPException 500 msg_processing),
     log (EvPrint (str_lit "❌ Error in /api/chat: ")
            (RuntimeError (str_lit "Gemini error: " ++ exc_str e) (Some e)))
       (called (spec_prompt (conversation_history request) (message request)) c w)).
Proof.
  intros Hb Hc. unfold chat. rewrite chat_guard_blank, Hb.
  cbn [negb]. unfold try_except, mbind, PyE_bind.
  rewrite generate_response_run.
  destruct Hc as [-> | ->]; apply chat_except_generic; discriminate.
Qed.

End Handler.

(** ** The claims *)

Section Claims.
Context {Client Model : Type} `{!GenAI Client Model}.

#[local] Abbreviation W := (World Client).

Lemma answer_of_text (text : pystr) :
  text ≠ [] → answer_of (Resp (inr (Some text))) = Some text.
Proof. intros Ht. destruct text; [done|reflexivity]. Qed.

Lemma answer_of_no_usable_text (resp : response) :
  no_usable_text resp → answer_of resp = Some fallback_text.
Proof. intros [-> | [-> | ->]]; reflexivity. Qed.

Lemma answer_of_defined (resp : response) :
  (∀ e, resp ≠ Resp (inl e)) → ∃ a, answer_of resp = Some a.
Proof.
  intros H. destruct resp as [|[e|t]]; cbn [answer_of]; eauto.
  - by destruct (H e).
  - destruct t; eauto.
Qed.

(** C1. For a request whose message is not blank, with any history, when the
    service is available and the model answers the prompt built for the
    request with a non-empty text, [chat] returns a [ChatResponse] whose
    [answer] is exactly that text and whose [sources] is a single entry with
    [id] 0. *)
Theorem chat_answers_with_model_text
    (svc : RagService) (request : ChatRequest) (w : W) (text : pystr) (c : Client) :
  blank (message request) = false →
  text ≠ [] →
  generate_content (model svc)
    (spec_prompt (conversation_history request) (message request)) (client w)
  = (inr (Resp (inr (Some text))), c) →
  ∃ resp w', chat (Some svc) request w = (inr resp, w')
    ∧ answer resp = text
    ∧ ∃ src, sources resp = [src] ∧ id src = 0%Z.
Proof.
  intros Hb Ht Hc.
  eexists _, _. split.
  - exact (chat_assembles _ _ _ _ _ _ Hb Hc (answer_of_text _ Ht)).
  - split; [reflexivity|]. exists synthetic_source. split; reflexivity.
Qed.

(** C2. For a request that reaches response assembly (service available,
    message not blank, the model call and its [text] do not raise), the
    metadata of the response holds the model identifier under ["model"] and,
    under ["has_history"], a boolean that is true exactly when
    [conversation_history] is not empty. *)
Theorem chat_metadata
    (svc : RagService) (request : ChatRequest) (w : W) (resp : response) (c : Client) :
  blank (message request) = false →
  generate_content (model svc)
    (spec_prompt (conversation_history request) (message request)) (client w)
  = (inr resp, c) →
  (∀ e, resp ≠ Resp (inl e)) →
  ∃ r w', chat (Some svc) request w = (inr r, w')
    ∧ metadata r !! "model" = Some (PyStr (str_lit "gemini-2.5-flash"))
    ∧ ∃ b, metadata r !! "has_history" = Some (PyBool b)
           ∧ (b = true ↔ conversation_history request ≠ []).
Proof.
  intros Hb Hc Hr. destruct (answer_of_defined _ Hr) as [a Ha].
  eexists _, _. split; [exact (chat_assembles _ _ _ _ _ _ Hb Hc Ha)|].
  cbn [metadata]. split; [apply metadata_of_model|].
  eexists. split; [apply metadata_of_has_history|].
  destruct (conversation_history request); cbn [list_truthy]; split; done.
Qed.

(** C3. For every history and query, the prompt built is the one the
    specification describes: each prior message rendered as
    ["<Label>: <content>"] with label ["User"] or ["Assistant"], the lines
    joined by newlines, the placeholder ["—"] (not the empty string) standing
    for an empty history, the system instruction first, and the query as
    ["User: <query>"] followed by the closing instruction last. *)
Theorem prompt_builder_renders (h : list ConversationMessage) (query : pystr) :
  full_prompt (history_payload h) query = inr (spec_prompt h query)
  ∧ full_prompt [] query
    = inr (system_instruction ++ NL ++ NL
           ++ str_lit "საუბრის ისტორია:" ++ NL ++ str_lit "—" ++ NL ++ NL
           ++ str_lit "ახლა მომხმარებლის ახალი კითხვა:" ++ NL
           ++ str_lit "User: " ++ query ++ NL ++ NL
           ++ str_lit "გთხოვ დეტალური და გასაგები პასუხი ქართულად.")
  ∧ history_text [] = str_lit "—"
  ∧ history_text [] ≠ str_lit "".
Proof.
  split; [apply full_prompt_payload|].
  split; [vm_compute; reflexivity|].
  split; [vm_compute; reflexivity|]. vm_compute. discriminate.
Qed.

(** C4, as amended. When the service is available, a request whose message is
    empty or made of whitespace only fails with status 400 and the
    empty-query message, whatever its history, and the world is left as it
    was: no call to the model was attempted. *)
Theorem blank_message_rejected (svc : RagService) (request : ChatRequest) (w : W) :
  blank (message request) = true →
  chat (Some svc) request w = (inl (HTTPException 400 msg_empty_query), w).
Proof. apply chat_blank. Qed.

(** C5. When [RagService()] raised at start-up, [rag_service] is [None], every
    request to [chat] fails with status 503 and leaves the world as it was
    (no call to the model), and [health] reports [rag_service_ready] false. *)
Theorem unavailable_service (w w0 : W) (e : exn) :
  RagService___init__ w = (inl e, w0) →
  fst (rag_service_init w) = None
  ∧ (∀ request w1,
       chat (fst (rag_service_init w)) request w1
       = (inl (HTTPException 503 msg_unavailable), w1))
  ∧ health (fst (rag_service_init w)) !! "rag_service_ready"
    = Some (PyBool false).
Proof.
  intros Hi. unfold rag_service_init. rewrite Hi. cbn [fst].
  split; [reflexivity|]. split; [intros; apply chat_unavailable|].
  vm_compute. reflexivity.
Qed.

(** C6. When the model call (or reading the [text] of its response) raises
    [e], [chat] fails with status 500 and the fixed processing-error message,
    the same for every [e]; [e] survives only in the printed log.  The
    [except HTTPException] clause hands an [HTTPException] on unchanged, and
    the 503 and 400 failures reach the caller as they were raised. *)
Theorem client_failure_is_generic
    (svc : RagService) (request : ChatRequest) (w : W) (e : ext_exn) (c : Client) :
  blank (message request) = false →
  generate_content (model svc)
    (spec_prompt (conversation_history request) (message request)) (client w)
  = (inl e, c)
  ∨ generate_content (model svc)
      (spec_prompt (conversation_history request) (message request)) (client w)
    = (inr (Resp (inl e)), c) →
  chat (Some svc) request w
  = (inl (HTTPException 500 msg_processing),
     log (EvPrint (str_lit "❌ Error in /api/chat: ")
            (RuntimeError (str_lit "Gemini error: " ++ exc_str e) (Some e)))
       (called (spec_prompt (conversation_history request) (message request)) c w))
  ∧ (∀ s d (w' : W),
       chat_except (A := ChatResponse) (HTTPException s d) w'
       = (inl (HTTPException s d), w'))
  ∧ (∀ request' (w' : W),
       chat None request' w' = (inl (HTTPException 503 msg_unavailable), w'))
  ∧ (∀ request' (w' : W),
       blank (message request') = true →
       chat (Some svc) request' w' = (inl (HTTPException 400 msg_empty_query), w')).
Proof.
  intros Hb Hc. split; [exact (chat_client_failure _ _ _ _ _ Hb Hc)|].
  split; [reflexivity|].
  split; [apply chat_unavailable|]. intros. by apply chat_blank.
Qed.

(** C7. When the model returns no usable text for a valid request (a falsy
    response, or a [text] that is [None] or empty), [chat] completes normally
    with a [ChatResponse] whose answer is the fixed fallback message. *)
Theorem no_usable_text_falls_back
    (svc : RagService) (request : ChatRequest) (w : W) (resp : response) (c : Client) :
  blank (message request) = false →
  generate_content (model svc)
    (spec_prompt (conversation_history request) (message request)) (client w)
  = (inr resp, c) →
  no_usable_text resp →
  ∃ r w', chat (Some svc) request w = (inr r, w') ∧ answer r = fallback_text.
Proof.
  intros Hb Hc Hr. eexists _, _. split.
  - exact (chat_assembles _ _ _ _ _ _ Hb Hc (answer_of_no_usable_text _ Hr)).
  - reflexivity.
Qed.

(** C9. [POST /chat] and [POST /api/chat] are bound to handlers that give the
    same outcome and the same final world for every request body: the alias
    is [chat] itself. *)
Theorem chat_alias_equivalent (rag_service : option RagService) (request : ChatRequest) :
  (∀ w : W, chat_alias rag_service request w = chat rag_service request w)
  ∧ ∃ h1 h2,
      app rag_service POST "/chat" request = Some h1
      ∧ app rag_service POST "/api/chat" request = Some h2
      ∧ ∀ w : W, h1 w = h2 w.
Proof.
  split; [reflexivity|]. eexists _, _.
  split; [|split]; [reflexivity|reflexivity|reflexivity].
Qed.

End Claims.

(** What [generate_response] adds to the prompts sent, given the outcome of
    building the prompt. *)
Lemma generate_response_prompts_sent {Client Model : Type} `{!GenAI Client Model}
    (self : RagService) (query : pystr) (history : list (gmap string pystr))
    (w : World Client) :
  prompts_sent (trace (snd (generate_response self query history w)))
  = prompts_sent (trace w)
    ++ match full_prompt history query with
       | inr p => [p]
       | inl _ => []
       end.
Proof.
  unfold generate_response, mbind, PyE_bind. rewrite prompt_builder_run.
  destruct (full_prompt history query) as [e|p]; cbn [snd].
  - by rewrite app_nil_r.
  - unfold try_except_ext, external, prompts_sent.
    destruct (generate_content _ _ _) as [[e|resp] c].
    + cbv beta iota delta [raise snd trace]. by rewrite omap_app.
    + destruct resp as [|[e|[text|]]]; cbn [answer_text];
        try destruct (str_truthy text);
        cbv beta iota delta [mret PyE_ret raise snd trace];
        by rewrite omap_app.
Qed.

(** C8. The prompt builder is deterministic and pure.  Run in any world, the
    lines that build the prompt hand the world back exactly as they received
    it (no side effect) and return a value that does not depend on it (no
    hidden state): two invocations on the same [(history, query)], in any two
    worlds, over any two clients, return the same prompt, or raise the same
    [KeyError].  That prompt is also the one [generate_response] hands to the
    model, whatever the service object, the client and the trace so far. *)
Theorem prompt_builder_deterministic
    (history : list (gmap string pystr)) (query : pystr) :
  (∀ (Client : Type) (w : World Client),
     snd (prompt_builder history query w) = w)
  ∧ (∀ (Client1 Client2 : Type) (w1 : World Client1) (w2 : World Client2),
       fst (prompt_builder history query w1)
       = fst (prompt_builder history query w2))
  ∧ (∀ (Client Model : Type) (G : GenAI Client Model)
       (self : RagService) (w w0 : World Client),
       prompts_sent (trace (snd (generate_response self query history w)))
       = prompts_sent (trace w)
         ++ match fst (prompt_builder history query w0) with
            | inr p => [p]
            | inl _ => []
            end).
Proof.
  split; [|split].
  - intros Client w. by rewrite prompt_builder_run.
  - intros Client1 Client2 w1 w2. by rewrite !prompt_builder_run.
  - intros Client Model G self w w0.
    rewrite prompt_builder_run. cbn [fst].
    apply generate_response_prompts_sent.
Qed.

(** C10. In the loop that renders the history from plain dicts, an entry whose
    role is any string other than ["user"] is rendered with the
    ["Assistant"] label, and an entry whose role is ["user"] with the
    ["User"] label. *)
Theorem non_user_role_labelled_assistant
    (history : list (gmap string pystr)) (entries : list (pystr * pystr))
    (i : nat) (r c : pystr) :
  Forall2 entry_of history entries →
  entries !! i = Some (r, c) →
  r ≠ str_lit "user" →
  ∃ lines, history_text_lines history = inr lines
    ∧ lines !! i = Some (str_lit "Assistant" ++ str_lit ": " ++ c)
    ∧ ∀ j (r' c' : pystr), entries !! j = Some (r', c') → r' = str_lit "user" →
                 lines !! j = Some (str_lit "User" ++ str_lit ": " ++ c').
Proof.
  intros Hh Hi Hr. exists (map line_of entries).
  split; [by apply history_text_lines_entries|]. split.
  - rewrite list_lookup_fmap, Hi. cbn [fmap option_fmap option_map].
    unfold line_of. cbn [fst snd]. by rewrite decide_False.
  - intros j r' c' Hj ->. rewrite list_lookup_fmap, Hj.
    cbn [fmap option_fmap option_map]. unfold line_of. cbn [fst snd].
    by rewrite decide_True.
Qed.

(** ** The claims at concrete requests, with the scripted client *)

Lemma chat_answers_with_model_text_witness :
  blank (message Scripted.hello) = false
  ∧ ∃ resp w',
      chat (Some Scripted.svc) Scripted.hello
        (Scripted.world (Scripted.replies "Hi there")) = (inr resp, w')
      ∧ answer resp = str_lit "Hi there"
      ∧ ∃ src, sources resp = [src] ∧ id src = 0%Z.
Proof.
  split; [vm_compute; reflexivity|].
  apply (chat_answers_with_model_text Scripted.svc Scripted.hello
           (Scripted.world (Scripted.replies "Hi there")) (str_lit "Hi there")
           (Scripted.replies "Hi there")).
  - vm_compute; reflexivity.
  - vm_compute; discriminate.
  - vm_compute; reflexivity.
Defined.

Lemma chat_metadata_witness :
  ∃ r w',
    chat (Some Scripted.svc) Scripted.hello_again
      (Scripted.world (Scripted.replies "Then we talk.")) = (inr r, w')
    ∧ metadata r !! "model" = Some (PyStr (str_lit "gemini-2.5-flash"))
    ∧ ∃ b, metadata r !! "has_history" = Some (PyBool b)
           ∧ (b = true ↔ conversation_history Scripted.hello_again ≠ []).
Proof.
  apply (chat_metadata Scripted.svc Scripted.hello_again
           (Scripted.world (Scripted.replies "Then we talk."))
           (Resp (inr (Some (str_lit "Then we talk."))))
           (Scripted.replies "Then we talk.")).
  - vm_compute; reflexivity.
  - vm_compute; reflexivity.
  - intros e; discriminate.
Defined.

(** C4 as stated fails when the service is unavailable: a request whose
    message is three spaces is then answered 503, not 400. *)
Lemma blank_message_unavailable_is_503 :
  let request := {| message := str_lit "   "; conversation_history := [] |} in
  let w := Scripted.world_no_key (Scripted.replies "unused") in
  blank (message request) = true
  ∧ fst (chat (Model := unit) None request w)
    = inl (HTTPException 503 msg_unavailable)
  ∧ fst (chat (Model := unit) None request w)
    ≠ inl (HTTPException 400 msg_empty_query).
Proof.
  cbv zeta. split; [vm_compute; reflexivity|].
  rewrite chat_unavailable. cbn [fst]. split; [reflexivity|].
  intros H. injection H as H _. discriminate H.
Qed.

Lemma blank_message_rejected_witness :
  let request := {| message := str_lit " 	 "; conversation_history := [] |} in
  let w := Scripted.world (Scripted.replies "unused") in
  blank (message request) = true
  ∧ chat (Some Scripted.svc) request w
    = (inl (HTTPException 400 msg_empty_query), w).
Proof.
  cbv zeta. split; [vm_compute; reflexivity|].
  apply (blank_message_rejected Scripted.svc
           {| message := str_lit " 	 "; conversation_history := [] |}
           (Scripted.world (Scripted.replies "unused"))).
  vm_compute; reflexivity.
Defined.

Lemma unavailable_service_witness :
  let w := Scripted.world_no_key (Scripted.replies "unused") in
  fst (rag_service_init (Model := unit) w) = None
  ∧ (∀ request w1,
       chat (fst (rag_service_init (Model := unit) w)) request w1
       = (inl (HTTPException 503 msg_unavailable), w1))
  ∧ health (fst (rag_service_init (Model := unit) w)) !! "rag_service_ready"
    = Some (PyBool false).
Proof.
  cbv zeta.
  apply (unavailable_service
           (Scripted.world_no_key (Scripted.replies "unused"))
           (Scripted.world_no_key (Scripted.replies "unused"))
           (RuntimeError
              (str_lit "GEMINI_API_KEY არ არის განსაზღვრული .env ფაილში") None)).
  vm_compute; reflexivity.
Defined.

Lemma client_failure_is_generic_witness :
  let e := ExtExn "ResourceExhausted" (str_lit "429 quota exceeded for key secret") in
  fst (chat (Some Scripted.svc) Scripted.hello (Scripted.world (inl e)))
  = inl (HTTPException 500 msg_processing).
Proof.
  cbv zeta.
  pose proof
    (client_failure_is_generic Scripted.svc Scripted.hello
       (Scripted.world
          (inl (ExtExn "ResourceExhausted"
                  (str_lit "429 quota exceeded for key secret"))))
       (ExtExn "ResourceExhausted" (str_lit "429 quota exceeded for key secret"))
       (inl (ExtExn "ResourceExhausted"
               (str_lit "429 quota exceeded for key secret")))) as H.
  destruct H as [H _].
  - vm_compute; reflexivity.
  - left. vm_compute; reflexivity.
  - rewrite H. reflexivity.
Defined.

Lemma no_usable_text_falls_back_witness :
  ∃ r w',
    chat (Some Scripted.svc) Scripted.hello (Scripted.world (inr RespFalsy))
    = (inr r, w')
    ∧ answer r = fallback_text.
Proof.
  apply (no_usable_text_falls_back Scripted.svc Scripted.hello
           (Scripted.world (inr RespFalsy)) RespFalsy (inr RespFalsy)).
  - vm_compute; reflexivity.
  - vm_compute; reflexivity.
  - left; reflexivity.
Defined.

Lemma non_user_role_labelled_assistant_witness :
  ∃ lines,
    history_text_lines
      [ dict_of [ ("role", str_lit "system"); ("content", str_lit "be brief") ] ]
    = inr lines
    ∧ lines !! 0%nat = Some (str_lit "Assistant" ++ str_lit ": " ++ str_lit "be brief")
    ∧ ∀ j (r' c' : pystr),
        [ (str_lit "system", str_lit "be brief") ] !! j = Some (r', c') →
        r' = str_lit "user" →
        lines !! j = Some (str_lit "User" ++ str_lit ": " ++ c').
Proof.
  apply (non_user_role_labelled_assistant
           [ dict_of [ ("role", str_lit "system"); ("content", str_lit "be brief") ] ]
           [ (str_lit "system", str_lit "be brief") ] 0
           (str_lit "system") (str_lit "be brief")).
  - constructor; [|constructor]. split; vm_compute; reflexivity.
  - reflexivity.
  - vm_compute; discriminate.
Defined.

(** ** Further properties of the prompt loop *)

Lemma missing_key_none_entry (msg : gmap string pystr) :
  missing_key msg = None → ∃ rc, entry_of msg rc.
Proof.
  unfold missing_key, entry_of. intros H.
  destruct (msg !! "role") as [r|] eqn:Hr; [|discriminate].
  destruct (msg !! "content") as [c|] eqn:Hc; [|discriminate].
  by exists (r, c).
Qed.

Lemma complete_history_entries (history : list (gmap string pystr)) :
  Forall (fun m => missing_key m = None) history →
  ∃ entries, Forall2 entry_of history entries.
Proof.
  induction 1 as [|m history Hm _ [entries IH]]; [by exists []|].
  destruct (missing_key_none_entry _ Hm) as [rc Hrc].
  exists (rc :: entries). by constructor.
Qed.

Lemma history_text_lines_loop_length history acc lines :
  history_text_lines_loop history acc = inr lines →
  Forall (fun m => missing_key m = None) history
  ∧ length lines = (length acc + length history)%nat.
Proof.
  revert acc. induction history as [|msg history IH]; intros acc;
    cbn [history_text_lines_loop]; unfold mbind, Exc_bind, mret, Exc_ret.
  - intros [= <-]. split; [constructor|simpl; lia].
  - unfold getitem.
    destruct (msg !! "role") as [r|] eqn:Hr; [|discriminate].
    destruct (msg !! "content") as [c|] eqn:Hc; [|discriminate].
    intros H. apply IH in H as [HF Hl]. split.
    + constructor; [|exact HF]. unfold missing_key. by rewrite Hr, Hc.
    + rewrite Hl, length_app. simpl. lia.
Qed.

Lemma history_text_lines_loop_missing good msg rest key acc :
  Forall (fun m => missing_key m = None) good →
  missing_key msg = Some key →
  history_text_lines_loop (good ++ msg :: rest) acc = inl (KeyError key).
Proof.
  intros Hg Hk. revert acc.
  induction Hg as [|m good Hm _ IH]; intros acc;
    rewrite ?app_nil_l, <- ?app_comm_cons;
    cbn [history_text_lines_loop]; unfold mbind, Exc_bind, getitem.
  - unfold missing_key in Hk. revert Hk.
    destruct (msg !! "role") as [r|]; [|by intros [= <-]].
    destruct (msg !! "content") as [c|]; [discriminate|by intros [= <-]].
  - unfold missing_key in Hm. revert Hm.
    destruct (m !! "role") as [r|]; [|discriminate].
    destruct (m !! "content") as [c|]; [|discriminate].
    intros _. apply IH.
Qed.

Lemma history_split (history : list (gmap string pystr)) :
  Forall (fun m => missing_key m = None) history
  ∨ ∃ good msg rest key,
      history = good ++ msg :: rest
      ∧ Forall (fun m => missing_key m = None) good
      ∧ missing_key msg = Some key.
Proof.
  induction history as [|m history IH]; [left; constructor|].
  destruct (missing_key m) as [key|] eqn:Hm.
  - right. exists [], m, history, key. by repeat split.
  - destruct IH as [IH|(good & msg & rest & key & -> & Hg & Hk)].
    + left. by constructor.
    + right. exists (m :: good), msg, rest, key. repeat split; [|done].
      by constructor.
Qed.

(** X1. The history loop succeeds exactly on the histories whose every dict
    has both keys, and then yields one line per entry; otherwise it raises
    [KeyError] for the first subscript that fails, ["role"] being read before
    ["content"]. *)
Theorem history_text_lines_outcome (history : list (gmap string pystr)) :
  match history_text_lines history with
  | inr lines =>
      Forall (fun m => missing_key m = None) history
      ∧ length lines = length history
  | inl e =>
      ∃ good msg rest key,
        history = good ++ msg :: rest
        ∧ Forall (fun m => missing_key m = None) good
        ∧ missing_key msg = Some key
        ∧ e = KeyError key
  end.
Proof.
  unfold history_text_lines.
  destruct (history_split history) as [HF|(good & msg & rest & key & -> & Hg & Hk)].
  - destruct (history_text_lines_loop history []) as [e|lines] eqn:Hl.
    + exfalso. destruct (complete_history_entries _ HF) as [entries He].
      rewrite (history_text_lines_loop_entries _ _ [] He) in Hl. discriminate.
    + by apply history_text_lines_loop_length in Hl as [? ?].
  - rewrite (history_text_lines_loop_missing _ _ _ _ _ Hg Hk).
    exists good, msg, rest, key. by repeat split.
Qed.

(** ** Further properties of the handler *)

Lemma fallback_text_nonempty : fallback_text ≠ [].
Proof. vm_compute. discriminate. Qed.

Lemma answer_of_nonempty (resp : response) (a : pystr) :
  answer_of resp = Some a → a ≠ [].
Proof.
  destruct resp as [|[e|[text|]]]; cbn [answer_of]; try discriminate;
    intros [= <-]; try apply fallback_text_nonempty.
  destruct text; [apply fallback_text_nonempty|discriminate].
Qed.

Lemma prompts_sent_called {Client} (p : pystr) (c : Client) (w : World Client) :
  prompts_sent (trace (called p c w)) = prompts_sent (trace w) ++ [p].
Proof. unfold called, prompts_sent. cbn [trace]. by rewrite omap_app. Qed.

Section HandlerOutcomes.
Context {Client Model : Type} `{!GenAI Client Model}.

#[local] Abbreviation W := (World Client).

Lemma prompts_sent_print (prefix : pystr) (e : exn) (w : W) :
  prompts_sent (trace (log (EvPrint prefix e) w)) = prompts_sent (trace w).
Proof.
  unfold log, prompts_sent. cbn [trace]. rewrite omap_app. apply app_nil_r.
Qed.

(** The two ways a request that passed both guards can end. *)
Lemma chat_cases (svc : RagService) (request : ChatRequest) (w : W) :
  blank (message request) = false →
  (∃ resp a c,
     generate_content (model svc)
       (spec_prompt (conversation_history request) (message request)) (client w)
     = (inr resp, c)
     ∧ answer_of resp = Some a
     ∧ chat (Some svc) request w
       = (inr {| answer := a;
                 sources := [synthetic_source];
                 metadata := metadata_of (list_truthy (conversation_history request)) |},
          called (spec_prompt (conversation_history request) (message request)) c w))
  ∨ (∃ e c,
       (generate_content (model svc)
          (spec_prompt (conversation_history request) (message request)) (client w)
        = (inl e, c)
        ∨ generate_content (model svc)
            (spec_prompt (conversation_history request) (message request)) (client w)
          = (inr (Resp (inl e)), c))
       ∧ chat (Some svc) request w
         = (inl (HTTPException 500 msg_processing),
            log (EvPrint (str_lit "❌ Error in /api/chat: ")
                   (RuntimeError (str_lit "Gemini error: " ++ exc_str e) (Some e)))
              (called (spec_prompt (conversation_history request) (message request)) c w))).
Proof.
  intros Hb.
  destruct (generate_content (model svc)
              (spec_prompt (conversation_history request) (message request))
              (client w)) as [[e|resp] c] eqn:Hc.
  - right. exists e, c. split; [by left|].
    apply chat_client_failure; [done|by left].
  - destruct (answer_of resp) as [a|] eqn:Ha.
    + left. exists resp, a, c. split; [done|]. split; [done|].
      by apply (chat_assembles _ _ _ _ _ resp).
    + destruct resp as [|[e|[text|]]]; try discriminate.
      right. exists e, c. split; [by right|].
      apply chat_client_failure; [done|by right].
Qed.

(** X2. A request makes at most one call to the model: [chat] hands the model
    the prompt of the request exactly once when the service is available and
    the message is not blank, and nothing otherwise; the process environment
    is never touched. *)
Theorem chat_calls_model_at_most_once
    (rag_service : option RagService) (request : ChatRequest) (w : W) :
  environ (snd (chat rag_service request w)) = environ w
  ∧ prompts_sent (trace (snd (chat rag_service request w)))
    = prompts_sent (trace w) ++ chat_prompts rag_service request.
Proof.
  unfold chat_prompts. destruct rag_service as [svc|].
  - destruct (blank (message request)) eqn:Hb.
    + rewrite (chat_blank _ _ _ Hb). cbn [snd]. by rewrite app_nil_r.
    + destruct (chat_cases svc request w Hb)
        as [(resp & a & c & _ & _ & ->)|(e & c & _ & ->)]; cbn [snd].
      * split; [reflexivity|apply prompts_sent_called].
      * split; [reflexivity|].
        by rewrite prompts_sent_print, prompts_sent_called.
  - rewrite chat_unavailable. cbn [snd]. by rewrite app_nil_r.
Qed.


(** X4. The status tells the cause: 503 is raised exactly when the service is
    unavailable, and 400 exactly when it is available and the message is
    blank. *)
Theorem chat_status_cause
    (rag_service : option RagService) (request : ChatRequest) (w : W) :
  ((∃ d, fst (chat rag_service request w) = inl (HTTPException 503 d))
   ↔ rag_service = None)
  ∧ ((∃ d, fst (chat rag_service request w) = inl (HTTPException 400 d))
     ↔ is_Some rag_service ∧ blank (message request) = true).
Proof.
  destruct rag_service as [svc|].
  - destruct (blank (message request)) eqn:Hb.
    + rewrite (chat_blank _ _ _ Hb). cbn [fst]. split; split.
      * intros [d [=]].
      * discriminate.
      * intros _. split; [by eexists|reflexivity].
      * intros _. eexists. reflexivity.
    + destruct (chat_cases svc request w Hb)
        as [(resp & a & c & _ & _ & ->)|(e & c & _ & ->)]; cbn [fst];
        (split; split; [intros [d [=]]|discriminate|intros [d [=]]|intros [_ [=]]]).
  - rewrite chat_unavailable. cbn [fst]. split; split.
    + reflexivity.
    + intros _. eexists. reflexivity.
    + intros [d [=]].
    + intros [[? [=]] _].
Qed.

(** X5. Every response [chat] returns carries a non-empty answer, the one
    synthetic source, and the metadata of the request. *)
Theorem chat_response_invariant
    (rag_service : option RagService) (request : ChatRequest) (w w' : W)
    (r : ChatResponse) :
  chat rag_service request w = (inr r, w') →
  answer r ≠ []
  ∧ sources r = [synthetic_source]
  ∧ metadata r = metadata_of (list_truthy (conversation_history request)).
Proof.
  destruct rag_service as [svc|]; [|rewrite chat_unavailable; discriminate].
  destruct (blank (message request)) eqn:Hb;
    [rewrite (chat_blank _ _ _ Hb); discriminate|].
  destruct (chat_cases svc request w Hb)
    as [(resp & a & c & _ & Ha & ->)|(e & c & _ & ->)]; [|discriminate].
  intros [= <- _]. cbn [answer sources metadata].
  split; [exact (answer_of_nonempty _ _ Ha)|]. by split.
Qed.

(** X6. [chat] succeeds exactly when the service is available, the message is
    not blank, and the model returns a response whose [text] can be read. *)
Theorem chat_succeeds_iff
    (rag_service : option RagService) (request : ChatRequest) (w : W) :
  (∃ r, fst (chat rag_service request w) = inr r)
  ↔ ∃ svc resp c,
      rag_service = Some svc
      ∧ blank (message request) = false
      ∧ generate_content (model svc)
          (spec_prompt (conversation_history request) (message request)) (client w)
        = (inr resp, c)
      ∧ ∀ e, resp ≠ Resp (inl e).
Proof.
  split.
  - intros [r Hr]. destruct rag_service as [svc|];
      [|rewrite chat_unavailable in Hr; discriminate].
    destruct (blank (message request)) eqn:Hb;
      [rewrite (chat_blank _ _ _ Hb) in Hr; discriminate|].
    destruct (chat_cases svc request w Hb)
      as [(resp & a & c & Hc & Ha & Hch)|(e & c & _ & Hch)];
      rewrite Hch in Hr; [|discriminate].
    exists svc, resp, c. repeat split; try done.
    intros e ->. discriminate.
  - intros (svc & resp & c & -> & Hb & Hc & Hr).
    destruct (answer_of_defined _ Hr) as [a Ha].
    rewrite (chat_assembles _ _ _ _ _ _ Hb Hc Ha). cbn [fst].
    eexists. reflexivity.
Qed.

End HandlerOutcomes.

(** ** Further properties of the service object *)

Section ServiceObject.
Context {Client Model : Type} `{!GenAI Client Model}.

#[local] Abbreviation W := (World Client).

(** X7. The prompt is built before the [try]: when a history dict lacks a key,
    [generate_response] lets the [KeyError] out as it is (it is not turned
    into the ["Gemini error"] [RuntimeError]) and the model is not called. *)
Theorem generate_response_missing_key
    (self : RagService) (query : pystr)
    (good rest : list (gmap string pystr)) (msg : gmap string pystr)
    (key : string) (w : W) :
  Forall (fun m => missing_key m = None) good →
  missing_key msg = Some key →
  generate_response self query (good ++ msg :: rest) w = (inl (KeyError key), w).
Proof.
  intros Hg Hk.
  unfold generate_response, mbind, PyE_bind.
  rewrite prompt_builder_run. unfold full_prompt, history_text_lines.
  unfold mbind, Exc_bind.
  rewrite (history_text_lines_loop_missing _ _ _ _ _ Hg Hk). reflexivity.
Qed.

Lemma init_run_no_key (w : W) :
  environ w !! "GEMINI_API_KEY" = @None pystr
  ∨ environ w !! "GEMINI_API_KEY" = @Some pystr [] →
  RagService___init__ w = (inl (RuntimeError msg_no_api_key None), w).
Proof.
  intros Hk. unfold RagService___init__, os_getenv, mbind, PyE_bind.
  destruct Hk as [-> | ->];
    cbv beta iota delta [str_truthy raise msg_no_api_key]; reflexivity.
Qed.

(** X8. Without a [GEMINI_API_KEY] (unset or empty), start-up makes no call
    into the package: [RagService()] raises the [RuntimeError], which is
    printed, and [rag_service] is [None]. *)
Theorem init_without_api_key (w : W) :
  environ w !! "GEMINI_API_KEY" = @None pystr
  ∨ environ w !! "GEMINI_API_KEY" = @Some pystr [] →
  rag_service_init w
  = (None,
     log (EvPrint (str_lit "❌ RagService init error: ")
            (RuntimeError msg_no_api_key None)) w).
Proof.
  intros Hk. unfold rag_service_init. by rewrite (init_run_no_key _ Hk).
Qed.

(** X9. With a non-empty key, start-up configures the package with that key
    and then asks for the model ["gemini-2.5-flash"]; when both calls succeed
    [rag_service] holds the handle returned, and nothing is printed. *)
Theorem init_with_api_key (w : W) (key : pystr) (c1 c2 : Client) (m : Model) :
  environ w !! "GEMINI_API_KEY" = Some key →
  key ≠ [] →
  configure key (client w) = (inr (), c1) →
  GenerativeModel (str_lit "gemini-2.5-flash") c1 = (inr m, c2) →
  rag_service_init w
  = (Some {| model := m |},
     {| environ := environ w; client := c2;
        trace := (trace w ++ [EvConfigure key])
                 ++ [EvGenerativeModel (str_lit "gemini-2.5-flash")] |}).
Proof.
  intros Hk Hne Hc Hm.
  unfold rag_service_init, RagService___init__, os_getenv, mbind, PyE_bind.
  rewrite Hk. destruct key as [|k key]; [done|]. cbn [str_truthy].
  unfold propagate, try_except_ext, external. rewrite Hc. cbn [client].
  rewrite Hm. reflexivity.
Qed.

(** X10. When configuring the package raises, the model is never requested:
    the exception is printed and [rag_service] is [None]. *)
Theorem init_configure_raises (w : W) (key : pystr) (e : ext_exn) (c1 : Client) :
  environ w !! "GEMINI_API_KEY" = Some key →
  key ≠ [] →
  configure key (client w) = (inl e, c1) →
  rag_service_init w
  = (None,
     {| environ := environ w; client := c1;
        trace := (trace w ++ [EvConfigure key])
                 ++ [EvPrint (str_lit "❌ RagService init error: ") (External e)] |}).
Proof.
  intros Hk Hne Hc.
  unfold rag_service_init, RagService___init__, os_getenv, mbind, PyE_bind.
  rewrite Hk. destruct key as [|k key]; [done|]. cbn [str_truthy].
  unfold propagate, try_except_ext, external. rewrite Hc. reflexivity.
Qed.

(** X11. [health] always answers with status ["ok"], and reports the service
    ready exactly when [RagService()] returned at start-up. *)
Theorem health_reports_init (w : W) :
  health (fst (rag_service_init w)) !! "status" = Some (PyStr (str_lit "ok"))
  ∧ ∃ b, health (fst (rag_service_init w)) !! "rag_service_ready"
         = Some (PyBool b)
         ∧ (b = true ↔ ∃ svc w', RagService___init__ w = (inr svc, w')).
Proof.
  unfold rag_service_init.
  destruct (RagService___init__ w) as [[e|svc] w']; cbn [fst].
  - split; [vm_compute; reflexivity|]. exists false.
    split; [vm_compute; reflexivity|]. split; [discriminate|].
    intros (svc & w'' & [=]).
  - split; [vm_compute; reflexivity|]. exists true.
    split; [vm_compute; reflexivity|]. split; [|done].
    intros _. by exists svc, w'.
Qed.

End ServiceObject.

(** ** Further properties of response assembly *)

Lemma sources_loop_holds (docs : list pyval) (fields : list (pystr * pystr))
    (i : Z) (acc : list Source) :
  Forall2 doc_holds docs fields →
  sources_loop i docs acc
  = inr (acc ++ imap (fun k cs => {| id := i + Z.of_nat k;
                                     src_content := fst cs;
                                     section := snd cs |}) fields).
Proof.
  intros H. revert i acc.
  induction H as [|doc [c s] docs fields (d & -> & Hc & Hs) _ IH]; intros i acc.
  - cbn [sources_loop imap]. unfold mret, Exc_ret. by rewrite app_nil_r.
  - cbn [sources_loop py_get imap fst snd] in *.
    unfold mbind, Exc_bind. rewrite Hc, Hs. cbn [Source_new].
    rewrite IH, <- app_assoc. cbn [app]. rewrite Z.add_0_r.
    do 3 f_equal. apply imap_ext. intros k cs _. cbn [compose].
    f_equal. lia.
Qed.

(** X12. Response assembly numbers the sources by position: on a list of
    dicts whose ["content"] and ["section"] are strings (an absent key reading
    as the empty string), the loop returns one [Source] per document, in
    order, the k-th with [id] k. *)
Theorem sources_numbered_by_position
    (docs : list pyval) (fields : list (pystr * pystr)) :
  Forall2 doc_holds docs fields →
  ∃ sources,
    sources_loop 0 docs [] = inr sources
    ∧ length sources = length docs
    ∧ ∀ (k : nat) (cs : pystr * pystr),
        fields !! k = Some cs →
        sources !! k
        = Some {| id := Z.of_nat k; src_content := fst cs; section := snd cs |}.
Proof.
  intros H.
  exists (imap (fun k cs => {| id := 0 + Z.of_nat k;
                               src_content := fst cs;
                               section := snd cs |}) fields).
  split; [exact (sources_loop_holds _ _ 0 [] H)|]. split.
  - rewrite length_imap. symmetry. exact (Forall2_length _ _ _ H).
  - intros k cs Hk. rewrite list_lookup_imap, Hk. reflexivity.
Qed.

(** X13. A source document that is not a dict stops response assembly with an
    [AttributeError], whatever came before it in the list. *)
Theorem sources_loop_not_a_dict
    (good rest : list pyval) (fields : list (pystr * pystr)) (bad : pyval)
    (i : Z) (acc : list Source) :
  Forall2 doc_holds good fields →
  (∀ d, bad ≠ PyDict d) →
  sources_loop i (good ++ bad :: rest) acc = inl AttributeError.
Proof.
  intros H Hb. revert i acc.
  induction H as [|doc [c s] docs fields (d & -> & Hc & Hs) _ IH]; intros i acc;
    rewrite ?app_nil_l, <- ?app_comm_cons; cbn [sources_loop].
  - destruct bad; try reflexivity. by destruct (Hb d).
  - cbn [py_get fst snd] in *. unfold mbind, Exc_bind.
    rewrite Hc, Hs. cbn [Source_new]. apply IH.
Qed.

(** ** Newlines in a message are not escaped *)

Lemma join_merge (sep x y : pystr) (l : list pystr) :
  join sep ((x ++ sep ++ y) :: l) = join sep (x :: y :: l).
Proof.
  destruct l as [|z l]; cbn [join]; [reflexivity|].
  by rewrite <- !app_assoc.
Qed.

Lemma join_cons_eq (sep p : pystr) (l1 l2 : list pystr) :
  l1 ≠ [] → l2 ≠ [] → join sep l1 = join sep l2 →
  join sep (p :: l1) = join sep (p :: l2).
Proof.
  intros H1 H2 H. destruct l1; [done|]. destruct l2; [done|].
  cbn [join] in *. by rewrite H.
Qed.

Lemma spec_line_merge (r : Role) (a : pystr) (m : ConversationMessage) :
  spec_line {| role := r; content := a ++ NL ++ spec_line m |}
  = spec_line {| role := r; content := a |} ++ NL ++ spec_line m.
Proof.
  unfold spec_line at 1 3. cbn [role content]. by rewrite <- !app_assoc.
Qed.

(** X14. The rendering of the history is not injective: a message whose
    content ends in a newline followed by the rendered line of another
    message gives the same prompt as the two messages in sequence. *)
Theorem prompt_does_not_escape_newlines
    (h1 h2 : list ConversationMessage) (r : Role) (a : pystr)
    (m : ConversationMessage) (query : pystr) :
  full_prompt
    (history_payload
       (h1 ++ {| role := r; content := a ++ NL ++ spec_line m |} :: h2)) query
  = full_prompt
      (history_payload (h1 ++ {| role := r; content := a |} :: m :: h2)) query.
Proof.
  rewrite !full_prompt_payload. unfold spec_prompt. do 7 f_equal.
  assert (∀ h : list ConversationMessage,
            h ≠ [] → spec_history_block h = join NL (map spec_line h)) as Hblock
    by (intros [|? ?]; done).
  rewrite !Hblock by (by destruct h1).
  induction h1 as [|p h1 IH].
  - rewrite !app_nil_l. cbn [map]. by rewrite spec_line_merge, join_merge.
  - rewrite <- !app_comm_cons. cbn [map].
    apply join_cons_eq; [by destruct h1..|exact IH].
Qed.

(** ** What the handler prints *)

Section HandlerLog.
Context {Client Model : Type} `{!GenAI Client Model}.

#[local] Abbreviation W := (World Client).




End HandlerLog.

(** ** The further properties at concrete inputs *)

Lemma chat_response_invariant_witness :
  let w := Scripted.world (inr (Resp (inr (Some [])))) in
  let r := {| answer := fallback_text;
              sources := [synthetic_source];
              metadata := metadata_of true |} in
  let w' :=
    called (spec_prompt (conversation_history Scripted.hello_again)
              (message Scripted.hello_again))
      (inr (Resp (inr (Some [])))) w in
  chat (Some Scripted.svc) Scripted.hello_again w = (inr r, w')
  ∧ answer r ≠ []
  ∧ sources r = [synthetic_source]
  ∧ metadata r
    = metadata_of (list_truthy (conversation_history Scripted.hello_again)).
Proof.
  cbv zeta. split; [vm_compute; reflexivity|].
  apply (chat_response_invariant (Some Scripted.svc) Scripted.hello_again
           (Scripted.world (inr (Resp (inr (Some [])))))
           (called (spec_prompt (conversation_history Scripted.hello_again)
                      (message Scripted.hello_again))
              (inr (Resp (inr (Some []))))
              (Scripted.world (inr (Resp (inr (Some []))))))
           {| answer := fallback_text;
              sources := [synthetic_source];
              metadata := metadata_of true |}).
  vm_compute; reflexivity.
Defined.

Lemma generate_response_missing_key_witness :
  let w := Scripted.world (Scripted.replies "unused") in
  generate_response Scripted.svc (str_lit "Hello")
    ([ dict_of [ ("role", str_lit "user"); ("content", str_lit "Hi") ] ]
     ++ dict_of [ ("role", str_lit "assistant") ] :: []) w
  = (inl (KeyError "content"), w).
Proof.
  cbv zeta.
  apply (generate_response_missing_key Scripted.svc (str_lit "Hello")
           [ dict_of [ ("role", str_lit "user"); ("content", str_lit "Hi") ] ] []
           (dict_of [ ("role", str_lit "assistant") ]) "content"
           (Scripted.world (Scripted.replies "unused"))).
  - constructor; [vm_compute; reflexivity|constructor].
  - vm_compute; reflexivity.
Defined.

Lemma init_without_api_key_witness :
  let w := Scripted.world_no_key (Scripted.replies "unused") in
  rag_service_init (Model := unit) w
  = (None,
     log (EvPrint (str_lit "❌ RagService init error: ")
            (RuntimeError msg_no_api_key None)) w).
Proof.
  cbv zeta.
  apply (init_without_api_key
           (Scripted.world_no_key (Scripted.replies "unused"))).
  left. vm_compute; reflexivity.
Defined.

Lemma init_with_api_key_witness :
  let w := Scripted.world (Scripted.replies "unused") in
  rag_service_init w
  = (Some Scripted.svc,
     {| environ := environ w; client := client w;
        trace := (trace w ++ [EvConfigure (str_lit "secret")])
                 ++ [EvGenerativeModel (str_lit "gemini-2.5-flash")] |}).
Proof.
  cbv zeta.
  apply (init_with_api_key (Scripted.world (Scripted.replies "unused"))
           (str_lit "secret") (Scripted.replies "unused")
           (Scripted.replies "unused") ()).
  - vm_compute; reflexivity.
  - vm_compute; discriminate.
  - vm_compute; reflexivity.
  - vm_compute; reflexivity.
Defined.

(** A package whose [configure] rejects every key. *)
Lemma init_configure_raises_witness :
  let G : GenAI unit unit :=
    {| configure := fun _ c => (inl (ExtExn "ValueError" (str_lit "bad key")), c);
       GenerativeModel := fun _ c => (inr (), c);
       generate_content := fun _ _ c => (inr RespFalsy, c) |} in
  let w : World unit :=
    {| environ := dict_of [ ("GEMINI_API_KEY", str_lit "secret") ];
       client := (); trace := [] |} in
  fst (@rag_service_init unit unit G w) = None.
Proof.
  cbv zeta.
  rewrite (@init_configure_raises unit unit
             {| configure := fun _ c => (inl (ExtExn "ValueError" (str_lit "bad key")), c);
                GenerativeModel := fun _ c => (inr (), c);
                generate_content := fun _ _ c => (inr RespFalsy, c) |}
             {| environ := dict_of [ ("GEMINI_API_KEY", str_lit "secret") ];
                client := (); trace := [] |}
             (str_lit "secret") (ExtExn "ValueError" (str_lit "bad key")) ()).
  - reflexivity.
  - vm_compute; reflexivity.
  - vm_compute; discriminate.
  - vm_compute; reflexivity.
Defined.

Lemma sources_numbered_by_position_witness :
  ∃ sources,
    sources_loop 0
      [ PyDict (dict_of [ ("content", PyStr (str_lit "a")) ]);
        PyDict (dict_of [ ("section", PyStr (str_lit "b")) ]) ] []
    = inr sources
    ∧ length sources = 2%nat
    ∧ ∀ (k : nat) (cs : pystr * pystr),
        [ (str_lit "a", str_lit ""); (str_lit "", str_lit "b") ] !! k = Some cs →
        sources !! k
        = Some {| id := Z.of_nat k; src_content := fst cs; section := snd cs |}.
Proof.
  apply (sources_numbered_by_position
           [ PyDict (dict_of [ ("content", PyStr (str_lit "a")) ]);
             PyDict (dict_of [ ("section", PyStr (str_lit "b")) ]) ]
           [ (str_lit "a", str_lit ""); (str_lit "", str_lit "b") ]).
  constructor; [|constructor; [|constructor]];
    eexists; (split; [reflexivity|]); split; vm_compute; reflexivity.
Defined.

Lemma sources_loop_not_a_dict_witness :
  sources_loop 0
    ([ PyDict (dict_of [ ("content", PyStr (str_lit "a")) ]) ]
     ++ PyStr (str_lit "oops") :: []) []
  = inl AttributeError.
Proof.
  apply (sources_loop_not_a_dict
           [ PyDict (dict_of [ ("content", PyStr (str_lit "a")) ]) ] []
           [ (str_lit "a", str_lit "") ] (PyStr (str_lit "oops")) 0 []).
  - constructor; [|constructor].
    eexists; (split; [reflexivity|]); split; vm_compute; reflexivity.
  - intros d; discriminate.
Defined.
